(** * First Meaningful Paint audit: a shallow embedding and its properties

    The development follows
    [lighthouse-core/audits/metrics/first-meaningful-paint.js].

    - JavaScript values that can reach the [TestedAsMobileDevice] artifact
      are an inductive type, with [===] written out.
    - Objects indexed by a computed string key ([context.options],
      [artifacts.traces], [artifacts.devtoolsLogs]) are finite maps.
    - Timings and thresholds are real numbers.
    - The [async] body of [audit] is a computation in a state-and-rejection
      monad: the state is the evaluation context, a rejected promise is a
      [Rejected] outcome.
    - Collaborators defined in other files of the repository
      ([Audit.computeLogNormalScore], [Audit.DEFAULT_PASS],
      [ComputedFmp.request], the [i18n] formatter) are the fields of a
      record, [Collaborators], that [audit] takes.
    - The scoring curve itself is modelled from its specification in
      [Module Audit]; [Module Demo] holds concrete collaborators and inputs
      on which the audit is run. *)

From Stdlib Require Import Reals Lra.
From stdpp Require Import gmap strings.

Local Open Scope string_scope.
Local Open Scope R_scope.

(** ** JavaScript values and strict equality *)

Module Js.

(** The primitive values, and objects by reference. Finite numbers are
    reals, so [+0] and [-0] are one value; [NaN] and the infinities are
    separate constructors. *)
Inductive Value : Type :=
| Undefined
| Null
| Boolean (b : bool)
| Number (x : R)
| NaN
| Infinity (negative : bool)
| String (s : string)
| Object (ref : positive).

(** [a === b]: values of different types are never equal, [NaN] is equal
    to nothing, objects are compared by reference. *)
Definition strict_equals (a b : Value) : bool :=
  match a, b with
  | Undefined, Undefined => true
  | Null, Null => true
  | Boolean x, Boolean y => Bool.eqb x y
  | Number x, Number y => if Req_dec_T x y then true else false
  | Infinity x, Infinity y => Bool.eqb x y
  | String x, String y => bool_decide (x = y)
  | Object x, Object y => bool_decide (x = y)
  | _, _ => false
  end.

(** [ToBoolean]: the coercion that [!v] or [if (v)] would apply, and that
    [===] does not. *)
Definition to_boolean (v : Value) : bool :=
  match v with
  | Undefined | Null | NaN => false
  | Boolean b => b
  | Number x => if Req_dec_T x 0 then false else true
  | Infinity _ => true
  | String s => negb (bool_decide (s = ""))
  | Object _ => true
  end.

End Js.

(** ** Score options *)

(** [LH.Audit.ScoreOptions]: the two control points of the scoring curve. *)
Record ScoreOptions : Type := mkScoreOptions {
  scorePODR : R;
  scoreMedian : R
}.

(** The invariant the specification puts on a parameter pair: both
    thresholds positive, the low one strictly below the median. *)
Definition ScoreParameters_invariant (o : ScoreOptions) : Prop :=
  0 < scorePODR o /\ 0 < scoreMedian o /\ scorePODR o < scoreMedian o.

(** [static get defaultOptions()]. *)
Definition defaultOptions : gmap string ScoreOptions :=
  {[ "mobile" := {| scorePODR := 2000; scoreMedian := 4000 |};
     "desktop" := {| scorePODR := 800; scoreMedian := 1600 |} ]}.

(** The key computed in [audit]:
    [artifacts.TestedAsMobileDevice === false ? 'desktop' : 'mobile']. *)
Definition scoreOptionsKey (TestedAsMobileDevice : Js.Value) : string :=
  if Js.strict_equals TestedAsMobileDevice (Js.Boolean false)
  then "desktop" else "mobile".

(** [context.options[key]]: [None] is JavaScript's [undefined]. *)
Definition resolveOptions (TestedAsMobileDevice : Js.Value)
    (options : gmap string ScoreOptions) : option ScoreOptions :=
  options !! scoreOptionsKey TestedAsMobileDevice.

(** ** The audit *)

Section FirstMeaningfulPaint.

(** Opaque data of the surrounding framework: a trace, a network log, the
    run's settings, the memoisation store the evaluation context carries
    for computed metrics, and what the metric provider throws. *)
Context {Trace DevtoolsLog Settings ComputedCache Failure : Type}.

(** The artifacts named by [requiredArtifacts]. *)
Record Artifacts : Type := mkArtifacts {
  traces : gmap string Trace;
  devtoolsLogs : gmap string DevtoolsLog;
  TestedAsMobileDevice : Js.Value
}.

(** [LH.Audit.Context]. *)
Record AuditContext : Type := mkAuditContext {
  settings : Settings;
  options : gmap string ScoreOptions;
  computedCache : ComputedCache
}.

Definition set_computedCache (context : AuditContext) (cache : ComputedCache)
    : AuditContext :=
  {| settings := settings context;
     options := options context;
     computedCache := cache |}.

(** The same context under another configuration of [context.options]. *)
Definition set_options (context : AuditContext)
    (configured : gmap string ScoreOptions) : AuditContext :=
  {| settings := settings context;
     options := configured;
     computedCache := computedCache context |}.

(** [{trace, devtoolsLog, settings: context.settings}]; an index that
    misses yields [undefined], here [None]. *)
Record MetricComputationData : Type := mkMetricComputationData {
  trace : option Trace;
  devtoolsLog : option DevtoolsLog;
  data_settings : Settings
}.

(** What the metric provider resolves to. *)
Record Metric : Type := mkMetric { timing : R }.

(** [LH.Audit.Product] as this audit builds it. *)
Record Product : Type := mkProduct {
  score : R;
  numericValue : R;
  numericUnit : string;
  displayValue : string
}.

(** What a rejected promise carries: the provider's own failure, or the
    [TypeError] the runtime raises on a property read of [undefined]. *)
Inductive Thrown : Type :=
| Upstream (failure : Failure)
| TypeError (property : string).

Inductive Settled (A : Type) : Type :=
| Rejected (reason : Thrown)
| Fulfilled (value : A).
Arguments Rejected {A} reason.
Arguments Fulfilled {A} value.

(** An [async] computation: it runs against the evaluation context, may
    leave it changed, and settles. *)
Definition Async (A : Type) : Type := AuditContext -> AuditContext * Settled A.

Definition resolve {A} (a : A) : Async A := fun context => (context, Fulfilled a).

Definition throw {A} (e : Thrown) : Async A := fun context => (context, Rejected e).

Definition bind {A B} (m : Async A) (f : A -> Async B) : Async B :=
  fun context =>
    match m context with
    | (context', Fulfilled a) => f a context'
    | (context', Rejected e) => (context', Rejected e)
    end.

Definition read : Async AuditContext := fun context => (context, Fulfilled context).

Notation "x <- m ;; k" := (bind m (fun x => k))
  (at level 100, m at next level, right associativity).

(** The collaborators [audit] calls and this file does not define. The
    provider reads the context and may fill its memoisation store. *)
Record Collaborators : Type := mkCollaborators {
  Audit_DEFAULT_PASS : string;
  Audit_computeLogNormalScore : R -> R -> R -> R;
  ComputedFmp_request :
    MetricComputationData -> AuditContext -> ComputedCache * (Failure + Metric);
  i18n_UIStrings_seconds : string;
  str_ : string -> gmap string R -> string
}.

Variable ext : Collaborators.

(** [await ComputedFmp.request(data, context)]. *)
Definition await_request (data : MetricComputationData) : Async Metric :=
  fun context =>
    let '(cache, settled) := ComputedFmp_request ext data context in
    (set_computedCache context cache,
     match settled with
     | inl failure => Rejected (Upstream failure)
     | inr metricResult => Fulfilled metricResult
     end).

(** [o.p] where [o] may be [undefined]. *)
Definition member {T A} (o : option T) (p : T -> A) (name : string) : Async A :=
  match o with
  | Some x => resolve (p x)
  | None => throw (TypeError name)
  end.

(** [static async audit(artifacts, context)]. *)
Definition audit (artifacts : Artifacts) : Async Product :=
  let trace := traces artifacts !! Audit_DEFAULT_PASS ext in
  let devtoolsLog := devtoolsLogs artifacts !! Audit_DEFAULT_PASS ext in
  context <- read ;;
  let metricComputationData :=
    {| trace := trace; devtoolsLog := devtoolsLog;
       data_settings := settings context |} in
  metricResult <- await_request metricComputationData ;;
  context <- read ;;
  let scoreOptions :=
    resolveOptions (TestedAsMobileDevice artifacts) (options context) in
  podr <- member scoreOptions scorePODR "scorePODR" ;;
  median <- member scoreOptions scoreMedian "scoreMedian" ;;
  resolve
    {| score := Audit_computeLogNormalScore ext (timing metricResult) podr median;
       numericValue := timing metricResult;
       numericUnit := "millisecond";
       displayValue :=
         str_ ext (i18n_UIStrings_seconds ext)
           {[ "timeInMs" := timing metricResult ]} |}.

(** The computation data [audit] hands to the provider. *)
Definition requested (artifacts : Artifacts) (context : AuditContext)
    : MetricComputationData :=
  {| trace := traces artifacts !! Audit_DEFAULT_PASS ext;
     devtoolsLog := devtoolsLogs artifacts !! Audit_DEFAULT_PASS ext;
     data_settings := settings context |}.

(** The score of a settled audit, if it has one. *)
Definition settled_score (outcome : Settled Product) : option R :=
  match outcome with
  | Fulfilled product => Some (score product)
  | Rejected _ => None
  end.

(** Modelled from the spec: the memoisation guarantee of the metric
    provider ([ComputedFmp], in [computed/metrics/first-meaningful-paint.js],
    which this file only calls). A request repeated against the context the
    first one left finds the stored result: it settles the same way and
    leaves the store as it is. *)
Definition memoised : Prop :=
  forall data context cache settled,
    ComputedFmp_request ext data context = (cache, settled) ->
    ComputedFmp_request ext data (set_computedCache context cache)
      = (cache, settled).

End FirstMeaningfulPaint.

Arguments Rejected {Failure A} reason.
Arguments Fulfilled {Failure A} value.

(** ** The scoring curve *)

Module Audit.

(** Modelled from the spec: what [Audit.computeLogNormalScore] (in
    [audit.js], which this file only calls) builds its curve from: the
    distribution function and the quantile function of the standard normal
    distribution, and the score a timing equal to the low threshold is
    calibrated to, the "point of diminishing returns" constant (about 0.9),
    kept as a named tunable. The curve is taken over the reals. *)
Record Calibration : Type := mkCalibration {
  cdf : R -> R;
  quantile : R -> R;
  PODR_SCORE : R
}.

(** Modelled from the spec: the properties of the standard normal
    distribution that the calibration relies on, and the side of one half
    the constant lies on. *)
Record standard (c : Calibration) : Prop := mkStandard {
  cdf_monotone : forall x y, x <= y -> cdf c x <= cdf c y;
  cdf_range : forall x, 0 <= cdf c x <= 1;
  cdf_median : cdf c 0 = 1 / 2;
  cdf_quantile : forall p, 0 < p < 1 -> cdf c (quantile c p) = p;
  PODR_SCORE_high : 1 / 2 < PODR_SCORE c < 1
}.

(** Modelled from the spec: the location parameter, derived from the
    median threshold in log-space. *)
Definition location (medianThreshold : R) : R := ln medianThreshold.

(** Modelled from the spec: the scale (shape) parameter, derived from the
    ratio between the two thresholds through the standard normal quantile
    function. *)
Definition shape (c : Calibration) (lowThreshold medianThreshold : R) : R :=
  ln (lowThreshold / medianThreshold) / quantile c (1 - PODR_SCORE c).

(** Modelled from the spec: the log-normal distribution function; it has
    no mass at or below zero. *)
Definition logNormalCdf (c : Calibration) (mu sigma x : R) : R :=
  if Rle_dec x 0 then 0 else cdf c ((ln x - mu) / sigma).

(** Modelled from the spec: [Audit.computeLogNormalScore(timing,
    lowThreshold, medianThreshold)], the share of the fitted log-normal
    distribution that lies above [timing]. *)
Definition computeLogNormalScore (c : Calibration)
    (timing lowThreshold medianThreshold : R) : R :=
  1 - logNormalCdf c (location medianThreshold)
        (shape c lowThreshold medianThreshold) timing.

End Audit.

(** ** Collaborators to run the audit on *)

Module Demo.

(** A distribution function with a closed-form quantile function. *)
Definition logistic (x : R) : R := / (1 + exp (- x)).

Definition logit (p : R) : R := ln (p / (1 - p)).

Definition calibration : Audit.Calibration := {|
  Audit.cdf := logistic;
  Audit.quantile := logit;
  Audit.PODR_SCORE := 9 / 10
|}.

(** A trace is reduced to the time of its first meaningful paint, absent
    when the trace lacks the event; the provider keeps the one result it
    settled with in the context's store. *)
Definition request
    (data : MetricComputationData
              (Trace := option R) (DevtoolsLog := unit) (Settings := unit))
    (context : AuditContext
                 (Settings := unit) (ComputedCache := option (string + Metric)))
    : option (string + Metric) * (string + Metric) :=
  match computedCache context with
  | Some settled => (Some settled, settled)
  | None =>
      let settled :=
        match trace data with
        | Some (Some fmp) => inr {| timing := fmp |}
        | _ => inl "NO_FMP"
        end in
      (Some settled, settled)
  end.

Definition score : R -> R -> R -> R := Audit.computeLogNormalScore calibration.

Definition ext : Collaborators := {|
  Audit_DEFAULT_PASS := "defaultPass";
  Audit_computeLogNormalScore := score;
  ComputedFmp_request := request;
  i18n_UIStrings_seconds := "seconds";
  str_ := fun message _ => message
|}.

Definition artifacts (fmp : option R) (tested : Js.Value)
    : Artifacts (Trace := option R) (DevtoolsLog := unit) := {|
  traces := {[ "defaultPass" := fmp ]};
  devtoolsLogs := {[ "defaultPass" := tt ]};
  TestedAsMobileDevice := tested
|}.

Definition context (configured : gmap string ScoreOptions)
    : AuditContext (Settings := unit) (ComputedCache := option (string + Metric)) := {|
  settings := tt;
  options := configured;
  computedCache := None
|}.

(** A configuration that breaks the invariant both ways. *)
Definition invalid : gmap string ScoreOptions :=
  {[ "mobile" := {| scorePODR := 4000; scoreMedian := 2000 |};
     "desktop" := {| scorePODR := -800; scoreMedian := 1600 |} ]}.

(** Artifacts of a run with a second pass, whose trace has another time. *)
Definition artifacts_two_passes (fmp other : option R) (tested : Js.Value)
    : Artifacts (Trace := option R) (DevtoolsLog := unit) := {|
  traces := {[ "defaultPass" := fmp; "offlinePass" := other ]};
  devtoolsLogs := {[ "defaultPass" := tt; "offlinePass" := tt ]};
  TestedAsMobileDevice := tested
|}.

(** A configuration that overrides the mobile set and leaves out the
    desktop one. *)
Definition mobile_only : gmap string ScoreOptions :=
  {[ "mobile" := {| scorePODR := 2500; scoreMedian := 5000 |} ]}.

(** The audit on the built-in defaults. *)
Definition run_default (fmp : option R) (tested : Js.Value)
    : Settled (Failure := string) Product :=
  snd (audit ext (artifacts fmp tested) (context defaultOptions)).

End Demo.

(** * Properties *)

(** ** Options resolution *)

Lemma strict_equals_false_iff (v : Js.Value) :
  Js.strict_equals v (Js.Boolean false) = true <-> v = Js.Boolean false.
Proof.
  split.
  - destruct v as [ | |b| | | | | ]; simpl; try discriminate.
    destruct b; [discriminate | reflexivity].
  - intros ->. reflexivity.
Qed.

Lemma scoreOptionsKey_desktop (v : Js.Value) :
  scoreOptionsKey v = "desktop" <-> v = Js.Boolean false.
Proof.
  unfold scoreOptionsKey. rewrite <- strict_equals_false_iff.
  destruct (Js.strict_equals v (Js.Boolean false)); split;
    intros E; try reflexivity; discriminate E.
Qed.

Lemma scoreOptionsKey_mobile (v : Js.Value) :
  scoreOptionsKey v = "mobile" <-> v <> Js.Boolean false.
Proof.
  rewrite <- strict_equals_false_iff. unfold scoreOptionsKey.
  destruct (Js.strict_equals v (Js.Boolean false)); split; intros E.
  - discriminate E.
  - exfalso. apply E. reflexivity.
  - discriminate.
  - reflexivity.
Qed.

(** C3. Options resolution reads the desktop set exactly when the
    classification is the value [false]; for every other classification,
    in particular [undefined] and [true], it reads the mobile set. *)
Theorem resolveOptions_desktop_iff_false
    (v : Js.Value) (options : gmap string ScoreOptions) :
  (scoreOptionsKey v = "desktop" <-> v = Js.Boolean false)
  /\ (scoreOptionsKey v = "mobile" <-> v <> Js.Boolean false)
  /\ resolveOptions v options = options !! scoreOptionsKey v
  /\ resolveOptions (Js.Boolean false) options = options !! "desktop"
  /\ resolveOptions (Js.Boolean true) options = options !! "mobile"
  /\ resolveOptions Js.Undefined options = options !! "mobile".
Proof.
  split; [apply scoreOptionsKey_desktop |].
  split; [apply scoreOptionsKey_mobile |].
  repeat split.
Qed.

(** C10. Every classification other than the boolean [false] selects the
    mobile set and never the desktop one: the comparison is strict, so the
    falsy values [undefined], [null], [0], the empty string, and the string
    "false", select the mobile set as the truthy values do. *)
Theorem resolveOptions_strict_comparison
    (v : Js.Value) (options : gmap string ScoreOptions) :
  v <> Js.Boolean false ->
  scoreOptionsKey v = "mobile"
  /\ scoreOptionsKey v <> "desktop"
  /\ resolveOptions v options = options !! "mobile".
Proof.
  intros Hv. apply scoreOptionsKey_mobile in Hv.
  unfold resolveOptions. rewrite Hv. repeat split. discriminate.
Qed.

Lemma resolveOptions_strict_comparison_witness :
  Js.String "false" <> Js.Boolean false
  /\ scoreOptionsKey (Js.String "false") = "mobile"
  /\ scoreOptionsKey (Js.String "false") <> "desktop"
  /\ resolveOptions (Js.String "false") defaultOptions
      = Some {| scorePODR := 2000; scoreMedian := 4000 |}.
Proof.
  assert (Hv : Js.String "false" <> Js.Boolean false) by discriminate.
  split; [exact Hv |].
  exact (resolveOptions_strict_comparison (Js.String "false") defaultOptions Hv).
Defined.

(** The values the comparison could be thought to coerce: all of them are
    falsy but the last two, and all of them select the mobile set. *)
Example falsy_classifications_select_mobile :
  let select v := (Js.to_boolean v, scoreOptionsKey v) in
  select Js.Undefined = (false, "mobile")
  /\ select Js.Null = (false, "mobile")
  /\ select (Js.Number 0) = (false, "mobile")
  /\ select Js.NaN = (false, "mobile")
  /\ select (Js.String "") = (false, "mobile")
  /\ select (Js.String "false") = (true, "mobile")
  /\ select (Js.Boolean true) = (true, "mobile")
  /\ select (Js.Boolean false) = (false, "desktop").
Proof.
  intros select.
  assert (Hzero : Js.to_boolean (Js.Number 0) = false).
  { simpl. destruct (Req_dec_T 0 0) as [_ | Hne]; [reflexivity | now destruct Hne]. }
  unfold select. rewrite Hzero. repeat split.
Qed.

(** C5. The built-in defaults are 2000 and 4000 for mobile, 800 and 1600
    for desktop, and each pair has positive thresholds with the low one
    strictly below the median. *)
Theorem defaultOptions_values :
  defaultOptions !! "mobile" = Some {| scorePODR := 2000; scoreMedian := 4000 |}
  /\ defaultOptions !! "desktop" = Some {| scorePODR := 800; scoreMedian := 1600 |}
  /\ ScoreParameters_invariant {| scorePODR := 2000; scoreMedian := 4000 |}
  /\ ScoreParameters_invariant {| scorePODR := 800; scoreMedian := 1600 |}.
Proof.
  unfold ScoreParameters_invariant. simpl.
  repeat split; try reflexivity; lra.
Qed.

(** ** The scoring curve *)

Section LogNormalProperties.

Variable c : Audit.Calibration.
Hypothesis Hstandard : Audit.standard c.

Lemma quantile_negative : Audit.quantile c (1 - Audit.PODR_SCORE c) < 0.
Proof.
  pose proof (Audit.PODR_SCORE_high c Hstandard) as Hpodr.
  destruct (Rlt_le_dec (Audit.quantile c (1 - Audit.PODR_SCORE c)) 0)
    as [Hneg | Hpos]; [exact Hneg | exfalso].
  apply (Audit.cdf_monotone c Hstandard) in Hpos.
  rewrite (Audit.cdf_median c Hstandard) in Hpos.
  rewrite (Audit.cdf_quantile c Hstandard) in Hpos; lra.
Qed.

Lemma ln_ratio_negative (low median : R) :
  0 < low < median -> ln (low / median) < 0.
Proof.
  intros [Hlow Hlt]. rewrite <- ln_1.
  assert (Hinv : 0 < / median) by (apply Rinv_0_lt_compat; lra).
  apply ln_increasing.
  - unfold Rdiv. apply Rmult_lt_0_compat; assumption.
  - apply (Rmult_lt_reg_r median); [lra |].
    unfold Rdiv. rewrite Rmult_assoc, Rinv_l; lra.
Qed.

Lemma shape_positive (low median : R) :
  0 < low < median -> 0 < Audit.shape c low median.
Proof.
  intros Hlm. unfold Audit.shape, Rdiv.
  pose proof (ln_ratio_negative low median Hlm) as Hln.
  pose proof (Rinv_lt_0_compat _ quantile_negative) as Hq.
  nra.
Qed.

Lemma logNormalCdf_range (mu sigma x : R) :
  0 <= Audit.logNormalCdf c mu sigma x <= 1.
Proof.
  unfold Audit.logNormalCdf. destruct (Rle_dec x 0); [lra |].
  apply (Audit.cdf_range c Hstandard).
Qed.

Lemma logNormalCdf_monotone (mu sigma x y : R) :
  0 < sigma -> x <= y ->
  Audit.logNormalCdf c mu sigma x <= Audit.logNormalCdf c mu sigma y.
Proof.
  intros Hsigma Hxy. unfold Audit.logNormalCdf.
  destruct (Rle_dec x 0) as [Hx | Hx]; destruct (Rle_dec y 0) as [Hy | Hy].
  - lra.
  - apply (Audit.cdf_range c Hstandard).
  - lra.
  - apply (Audit.cdf_monotone c Hstandard).
    assert (Hln : ln x <= ln y).
    { destruct Hxy as [Hlt | ->]; [left; apply ln_increasing; lra | right; reflexivity]. }
    pose proof (Rinv_0_lt_compat _ Hsigma) as Hinv.
    unfold Rdiv. apply Rmult_le_compat_r; lra.
Qed.

Lemma score_at_median (low median : R) :
  0 < median -> Audit.computeLogNormalScore c median low median = 1 / 2.
Proof.
  intros Hmedian.
  unfold Audit.computeLogNormalScore, Audit.logNormalCdf, Audit.location.
  destruct (Rle_dec median 0) as [Hle | _]; [lra |].
  replace ((ln median - ln median) / Audit.shape c low median) with 0
    by (unfold Rdiv; ring).
  rewrite (Audit.cdf_median c Hstandard). lra.
Qed.

Lemma score_at_low (low median : R) :
  0 < low < median ->
  Audit.computeLogNormalScore c low low median = Audit.PODR_SCORE c.
Proof.
  intros Hlm.
  pose proof (Audit.PODR_SCORE_high c Hstandard) as Hpodr.
  unfold Audit.computeLogNormalScore, Audit.logNormalCdf, Audit.location, Audit.shape.
  destruct (Rle_dec low 0) as [Hle | _]; [lra |].
  pose proof quantile_negative as Hq.
  pose proof (ln_ratio_negative low median Hlm) as Hratio.
  replace (ln low - ln median) with (ln (low / median))
    by (unfold Rdiv; rewrite ln_mult, ln_Rinv;
        [ring | lra | lra | apply Rinv_0_lt_compat; lra]).
  replace (ln (low / median)
           / (ln (low / median) / Audit.quantile c (1 - Audit.PODR_SCORE c)))
    with (Audit.quantile c (1 - Audit.PODR_SCORE c)) by (field; lra).
  rewrite (Audit.cdf_quantile c Hstandard) by lra. ring.
Qed.

End LogNormalProperties.

(** The logistic curve has the properties asked of the distribution. *)

Lemma exp_monotone (x y : R) : x <= y -> exp x <= exp y.
Proof.
  intros [Hlt | ->]; [left; apply exp_increasing; exact Hlt | right; reflexivity].
Qed.

Lemma logistic_monotone (x y : R) : x <= y -> Demo.logistic x <= Demo.logistic y.
Proof.
  intros Hxy. unfold Demo.logistic.
  pose proof (exp_pos (- x)). pose proof (exp_pos (- y)).
  assert (exp (- y) <= exp (- x)) by (apply exp_monotone; lra).
  apply Rinv_le_contravar; lra.
Qed.

Lemma logistic_range (x : R) : 0 <= Demo.logistic x <= 1.
Proof.
  unfold Demo.logistic. pose proof (exp_pos (- x)) as Hexp.
  split.
  - left. apply Rinv_0_lt_compat. lra.
  - rewrite <- Rinv_1 at 2. apply Rinv_le_contravar; lra.
Qed.

Lemma logistic_median : Demo.logistic 0 = 1 / 2.
Proof.
  unfold Demo.logistic. rewrite Ropp_0, exp_0. lra.
Qed.

Lemma logistic_logit (p : R) : 0 < p < 1 -> Demo.logistic (Demo.logit p) = p.
Proof.
  intros [Hp0 Hp1]. unfold Demo.logistic, Demo.logit.
  assert (Hodds : 0 < p / (1 - p)).
  { unfold Rdiv. apply Rmult_lt_0_compat; [lra | apply Rinv_0_lt_compat; lra]. }
  rewrite exp_Ropp, exp_ln by exact Hodds.
  field. lra.
Qed.

Lemma Demo_calibration_standard : Audit.standard Demo.calibration.
Proof.
  constructor; simpl.
  - exact logistic_monotone.
  - exact logistic_range.
  - exact logistic_median.
  - exact logistic_logit.
  - lra.
Qed.

(** C1. For a non-negative timing and thresholds [0 < low < median], the
    score computed by [Audit.computeLogNormalScore] lies between 0 and 1,
    and a larger timing never scores higher. *)
Theorem computeLogNormalScore_range_monotone
    (c : Audit.Calibration) (low median t1 t2 : R) :
  Audit.standard c ->
  0 < low < median ->
  0 <= t1 <= t2 ->
  0 <= Audit.computeLogNormalScore c t1 low median <= 1
  /\ 0 <= Audit.computeLogNormalScore c t2 low median <= 1
  /\ Audit.computeLogNormalScore c t2 low median
      <= Audit.computeLogNormalScore c t1 low median.
Proof.
  intros Hc Hlm [_ Ht]. unfold Audit.computeLogNormalScore.
  pose proof (logNormalCdf_range c Hc (Audit.location median)
                (Audit.shape c low median) t1) as H1.
  pose proof (logNormalCdf_range c Hc (Audit.location median)
                (Audit.shape c low median) t2) as H2.
  pose proof (logNormalCdf_monotone c Hc (Audit.location median) _ t1 t2
                (shape_positive c Hc low median Hlm) Ht) as Hm.
  lra.
Qed.

Lemma computeLogNormalScore_range_monotone_witness :
  Audit.standard Demo.calibration /\ 0 < 2000 < 4000 /\ 0 <= 0 <= 2000
  /\ 0 <= Demo.score 0 2000 4000 <= 1
  /\ 0 <= Demo.score 2000 2000 4000 <= 1
  /\ Demo.score 2000 2000 4000 <= Demo.score 0 2000 4000.
Proof.
  assert (Hlm : 0 < 2000 < 4000) by lra.
  assert (Ht : 0 <= 0 <= 2000) by lra.
  split; [exact Demo_calibration_standard |].
  split; [exact Hlm |]. split; [exact Ht |].
  exact (computeLogNormalScore_range_monotone Demo.calibration 2000 4000 0 2000
           Demo_calibration_standard Hlm Ht).
Defined.

(** C2. The curve passes through its two calibration points: a timing equal
    to the median threshold scores exactly one half, and a timing equal to
    the low threshold scores the point-of-diminishing-returns constant,
    which is above one half. *)
Theorem computeLogNormalScore_calibrated
    (c : Audit.Calibration) (low median : R) :
  Audit.standard c ->
  0 < low < median ->
  Audit.computeLogNormalScore c median low median = 1 / 2
  /\ Audit.computeLogNormalScore c low low median = Audit.PODR_SCORE c
  /\ 1 / 2 < Audit.computeLogNormalScore c low low median.
Proof.
  intros Hc Hlm.
  rewrite (score_at_median c Hc low median) by lra.
  rewrite (score_at_low c Hc low median Hlm).
  split; [reflexivity |]. split; [reflexivity |].
  apply (Audit.PODR_SCORE_high c Hc).
Qed.

Lemma computeLogNormalScore_calibrated_witness :
  Audit.standard Demo.calibration /\ 0 < 800 < 1600
  /\ Demo.score 1600 800 1600 = 1 / 2
  /\ Demo.score 800 800 1600 = 9 / 10
  /\ 1 / 2 < Demo.score 800 800 1600.
Proof.
  assert (Hlm : 0 < 800 < 1600) by lra.
  split; [exact Demo_calibration_standard |]. split; [exact Hlm |].
  exact (computeLogNormalScore_calibrated Demo.calibration 800 1600
           Demo_calibration_standard Hlm).
Defined.

(** ** The audit *)

Lemma Demo_request_memoised : memoised Demo.ext.
Proof.
  intros data context cache settled. simpl. unfold Demo.request.
  destruct (computedCache context) as [stored |]; simpl;
    intros E; injection E as <- <-; reflexivity.
Qed.

Section AuditProperties.

Context {Trace DevtoolsLog Settings ComputedCache Failure : Type}.

Variable ext : Collaborators (Trace := Trace) (DevtoolsLog := DevtoolsLog)
                 (Settings := Settings) (ComputedCache := ComputedCache)
                 (Failure := Failure).

(** [audit] in one piece: one request, then the property reads. *)
Lemma audit_unfold (artifacts : Artifacts) (context : AuditContext) :
  audit ext artifacts context =
  let '(cache, settled) :=
    ComputedFmp_request ext (requested ext artifacts context) context in
  (set_computedCache context cache,
   match settled with
   | inl failure => Rejected (Upstream failure)
   | inr metricResult =>
       match resolveOptions (TestedAsMobileDevice artifacts) (options context) with
       | None => Rejected (TypeError "scorePODR")
       | Some scoreOptions =>
           Fulfilled
             {| score := Audit_computeLogNormalScore ext (timing metricResult)
                           (scorePODR scoreOptions) (scoreMedian scoreOptions);
                numericValue := timing metricResult;
                numericUnit := "millisecond";
                displayValue :=
                  str_ ext (i18n_UIStrings_seconds ext)
                    {[ "timeInMs" := timing metricResult ]} |}
       end
   end).
Proof.
  unfold audit, bind, read, await_request, requested. simpl.
  destruct (ComputedFmp_request ext _ context) as [cache [failure | metricResult]];
    simpl; [reflexivity |].
  destruct (resolveOptions _ _) as [scoreOptions |]; reflexivity.
Qed.


(** C4. When the provider fails, the audit rejects with the provider's own
    failure: no product is built, the provider is not asked again (the
    context is the one its single request left), and no score stands in for
    the failure. *)
Theorem audit_propagates_provider_failure
    (artifacts : Artifacts) (context : AuditContext)
    (cache : ComputedCache) (failure : Failure) :
  ComputedFmp_request ext (requested ext artifacts context) context
    = (cache, inl failure) ->
  audit ext artifacts context
    = (set_computedCache context cache, Rejected (Upstream failure))
  /\ forall context' product,
       audit ext artifacts context <> (context', Fulfilled product).
Proof.
  intros Hfail. rewrite audit_unfold, Hfail. split; [reflexivity |].
  intros context' product E. discriminate E.
Qed.

(** C6. A fulfilled audit carries the provider's timing as its numeric
    value, the unit "millisecond", the score of that timing under the
    resolved parameter set, and the localised rendering of that timing. *)
Theorem audit_product
    (artifacts : Artifacts) (context context' : AuditContext) (product : Product) :
  audit ext artifacts context = (context', Fulfilled product) ->
  exists metricResult scoreOptions,
    ComputedFmp_request ext (requested ext artifacts context) context
      = (computedCache context', inr metricResult)
    /\ resolveOptions (TestedAsMobileDevice artifacts) (options context)
       = Some scoreOptions
    /\ numericValue product = timing metricResult
    /\ numericUnit product = "millisecond"
    /\ score product
       = Audit_computeLogNormalScore ext (timing metricResult)
           (scorePODR scoreOptions) (scoreMedian scoreOptions)
    /\ displayValue product
       = str_ ext (i18n_UIStrings_seconds ext)
           {[ "timeInMs" := timing metricResult ]}.
Proof.
  rewrite audit_unfold.
  destruct (ComputedFmp_request ext _ context) as [cache [failure | metricResult]];
    [intros E; discriminate E |].
  destruct (resolveOptions _ _) as [scoreOptions |];
    [| intros E; discriminate E].
  intros E. injection E as <- <-.
  exists metricResult, scoreOptions. repeat split.
Qed.


(** C9, as the code has it. Options resolution checks nothing: whatever
    pair is configured under the selected key goes to the scoring function
    as it is, and the audit is fulfilled whenever the provider succeeds and
    some pair is configured under that key. *)
Theorem audit_scores_with_configured_thresholds
    (artifacts : Artifacts) (context : AuditContext) (cache : ComputedCache)
    (metricResult : Metric) (scoreOptions : ScoreOptions) :
  ComputedFmp_request ext (requested ext artifacts context) context
    = (cache, inr metricResult) ->
  resolveOptions (TestedAsMobileDevice artifacts) (options context)
    = Some scoreOptions ->
  exists product,
    audit ext artifacts context = (set_computedCache context cache, Fulfilled product)
    /\ score product
       = Audit_computeLogNormalScore ext (timing metricResult)
           (scorePODR scoreOptions) (scoreMedian scoreOptions).
Proof.
  intros Hrequest Hresolve. rewrite audit_unfold, Hrequest, Hresolve.
  eexists. split; reflexivity.
Qed.

(** X1. The one configuration fault the audit does surface: when the
    provider has resolved and no parameter set is configured under the
    selected key, reading [scoreOptions.scorePODR] throws, and the audit
    rejects with that [TypeError]; the store the request left is kept. *)
Lemma audit_rejects_missing_scoreOptions
    (artifacts : Artifacts) (context : AuditContext) (cache : ComputedCache)
    (metricResult : Metric) :
  ComputedFmp_request ext (requested ext artifacts context) context
    = (cache, inr metricResult) ->
  resolveOptions (TestedAsMobileDevice artifacts) (options context) = None ->
  audit ext artifacts context
    = (set_computedCache context cache, Rejected (TypeError "scorePODR")).
Proof.
  intros Hrequest Hresolve. rewrite audit_unfold, Hrequest, Hresolve. reflexivity.
Qed.

End AuditProperties.

(** *** The theorems on the demo collaborators *)

Lemma audit_propagates_provider_failure_witness :
  let artifacts := Demo.artifacts None (Js.Boolean true) in
  let context := Demo.context defaultOptions in
  ComputedFmp_request Demo.ext (requested Demo.ext artifacts context) context
    = (Some (inl "NO_FMP"), inl "NO_FMP")
  /\ audit Demo.ext artifacts context
     = (set_computedCache context (Some (inl "NO_FMP")),
        Rejected (Upstream "NO_FMP"))
  /\ forall context' product,
       audit Demo.ext artifacts context <> (context', Fulfilled product).
Proof.
  intros artifacts context.
  assert (Hfail :
    ComputedFmp_request Demo.ext (requested Demo.ext artifacts context) context
      = (Some (inl "NO_FMP"), inl "NO_FMP")) by reflexivity.
  split; [exact Hfail |].
  exact (audit_propagates_provider_failure Demo.ext artifacts context _ _ Hfail).
Defined.

Lemma audit_product_witness :
  let artifacts := Demo.artifacts (Some 2000) (Js.Boolean true) in
  let context := Demo.context defaultOptions in
  let product :=
    {| score := Demo.score 2000 2000 4000;
       numericValue := 2000;
       numericUnit := "millisecond";
       displayValue := "seconds" |} in
  let context' :=
    set_computedCache context (Some (inr {| timing := 2000 |})) in
  audit Demo.ext artifacts context = (context', Fulfilled product)
  /\ exists metricResult scoreOptions,
       ComputedFmp_request Demo.ext (requested Demo.ext artifacts context) context
         = (computedCache context', inr metricResult)
       /\ resolveOptions (TestedAsMobileDevice artifacts) (options context)
          = Some scoreOptions
       /\ numericValue product = timing metricResult
       /\ numericUnit product = "millisecond"
       /\ score product
          = Audit_computeLogNormalScore Demo.ext (timing metricResult)
              (scorePODR scoreOptions) (scoreMedian scoreOptions)
       /\ displayValue product
          = str_ Demo.ext (i18n_UIStrings_seconds Demo.ext)
              {[ "timeInMs" := timing metricResult ]}.
Proof.
  intros artifacts context product context'.
  assert (Hrun : audit Demo.ext artifacts context = (context', Fulfilled product))
    by reflexivity.
  split; [exact Hrun |].
  exact (audit_product Demo.ext artifacts context context' product Hrun).
Defined.



Lemma audit_scores_with_configured_thresholds_witness :
  let artifacts := Demo.artifacts (Some 800) (Js.Boolean false) in
  let context := Demo.context defaultOptions in
  let metricResult := {| timing := 800 |} in
  ComputedFmp_request Demo.ext (requested Demo.ext artifacts context) context
    = (Some (inr metricResult), inr metricResult)
  /\ resolveOptions (TestedAsMobileDevice artifacts) (options context)
     = Some {| scorePODR := 800; scoreMedian := 1600 |}
  /\ exists product,
       audit Demo.ext artifacts context
         = (set_computedCache context (Some (inr metricResult)), Fulfilled product)
       /\ score product = Demo.score 800 800 1600.
Proof.
  intros artifacts context metricResult.
  assert (Hrequest :
    ComputedFmp_request Demo.ext (requested Demo.ext artifacts context) context
      = (Some (inr metricResult), inr metricResult)) by reflexivity.
  assert (Hresolve :
    resolveOptions (TestedAsMobileDevice artifacts) (options context)
      = Some {| scorePODR := 800; scoreMedian := 1600 |}) by reflexivity.
  split; [exact Hrequest |]. split; [exact Hresolve |].
  exact (audit_scores_with_configured_thresholds Demo.ext artifacts context
           _ _ _ Hrequest Hresolve).
Defined.

(** C9 fails on the code: a configuration whose mobile pair has its low
    threshold above its median and whose desktop pair has a negative
    threshold is resolved without complaint, and the audit is fulfilled
    with a score computed from it. *)
Lemma invalid_configuration_is_not_rejected :
  let mobile := {| scorePODR := 4000; scoreMedian := 2000 |} in
  let desktop := {| scorePODR := -800; scoreMedian := 1600 |} in
  let settled := Some (inr {| timing := 3000 |}) in
  let product podr median :=
    {| score := Demo.score 3000 podr median;
       numericValue := 3000;
       numericUnit := "millisecond";
       displayValue := "seconds" |} in
  ~ ScoreParameters_invariant mobile
  /\ ~ ScoreParameters_invariant desktop
  /\ resolveOptions (Js.Boolean true) Demo.invalid = Some mobile
  /\ resolveOptions (Js.Boolean false) Demo.invalid = Some desktop
  /\ audit Demo.ext (Demo.artifacts (Some 3000) (Js.Boolean true))
       (Demo.context Demo.invalid)
     = (set_computedCache (Demo.context Demo.invalid) settled,
        Fulfilled (product 4000 2000))
  /\ audit Demo.ext (Demo.artifacts (Some 3000) (Js.Boolean false))
       (Demo.context Demo.invalid)
     = (set_computedCache (Demo.context Demo.invalid) settled,
        Fulfilled (product (-800) 1600)).
Proof.
  intros mobile desktop settled product.
  unfold ScoreParameters_invariant. simpl.
  split; [lra |]. split; [lra |]. repeat split.
Qed.

(** *** End-to-end scenarios

    The audit on the built-in defaults, with the curve calibrated to 0.9 at
    the low threshold. *)

Example scenario_mobile_at_podr :
  settled_score (Demo.run_default (Some 2000) (Js.Boolean true)) = Some (9 / 10).
Proof.
  change (Some (Demo.score 2000 2000 4000) = Some (9 / 10)).
  unfold Demo.score.
  rewrite (score_at_low Demo.calibration Demo_calibration_standard 2000 4000) by lra.
  reflexivity.
Qed.

Example scenario_mobile_at_median :
  settled_score (Demo.run_default (Some 4000) Js.Undefined) = Some (1 / 2).
Proof.
  change (Some (Demo.score 4000 2000 4000) = Some (1 / 2)).
  unfold Demo.score.
  rewrite (score_at_median Demo.calibration Demo_calibration_standard 2000 4000) by lra.
  reflexivity.
Qed.

Example scenario_desktop_at_podr :
  settled_score (Demo.run_default (Some 800) (Js.Boolean false)) = Some (9 / 10).
Proof.
  change (Some (Demo.score 800 800 1600) = Some (9 / 10)).
  unfold Demo.score.
  rewrite (score_at_low Demo.calibration Demo_calibration_standard 800 1600) by lra.
  reflexivity.
Qed.

Example scenario_desktop_at_median :
  settled_score (Demo.run_default (Some 1600) (Js.Boolean false)) = Some (1 / 2).
Proof.
  change (Some (Demo.score 1600 800 1600) = Some (1 / 2)).
  unfold Demo.score.
  rewrite (score_at_median Demo.calibration Demo_calibration_standard 800 1600) by lra.
  reflexivity.
Qed.

Example scenario_provider_failure :
  Demo.run_default None (Js.Boolean true) = Rejected (Upstream "NO_FMP")
  /\ settled_score (Demo.run_default None (Js.Boolean true)) = None.
Proof. split; reflexivity. Qed.

Example scenario_unconfigured_key :
  snd (audit Demo.ext (Demo.artifacts (Some 2000) (Js.Boolean false))
         (Demo.context {[ "mobile" := {| scorePODR := 2000; scoreMedian := 4000 |} ]}))
  = Rejected (TypeError "scorePODR").
Proof. reflexivity. Qed.

(** ** Further properties of the audit *)

Section AuditFurtherProperties.

Context {Trace DevtoolsLog Settings ComputedCache Failure : Type}.

Variable ext : Collaborators (Trace := Trace) (DevtoolsLog := DevtoolsLog)
                 (Settings := Settings) (ComputedCache := ComputedCache)
                 (Failure := Failure).

(** X2. The audit rejects for two reasons only: with the failure of the
    provider's request, or, once the provider has resolved, with the
    [TypeError] of a parameter set missing under the selected key. *)
Theorem audit_rejection_reasons
    (artifacts : Artifacts) (context context' : AuditContext) (reason : Thrown) :
  audit ext artifacts context = (context', Rejected reason) ->
  (exists failure,
      reason = Upstream failure
      /\ ComputedFmp_request ext (requested ext artifacts context) context
         = (computedCache context', inl failure))
  \/ (reason = TypeError "scorePODR"
      /\ (exists metricResult,
            ComputedFmp_request ext (requested ext artifacts context) context
              = (computedCache context', inr metricResult))
      /\ resolveOptions (TestedAsMobileDevice artifacts) (options context) = None).
Proof.
  rewrite audit_unfold.
  destruct (ComputedFmp_request ext _ context) as [cache [failure | metricResult]].
  - intros E. injection E as <- <-. left. exists failure. split; reflexivity.
  - destruct (resolveOptions _ _) as [scoreOptions |] eqn:Hresolve;
      intros E; [discriminate E |].
    injection E as <- <-. right.
    split; [reflexivity |]. split; [exists metricResult; reflexivity | reflexivity].
Qed.

(** X3. Of the traces and network logs the audit reads the entries of the
    default pass only, and of the classification only whether it is
    [false]: artifacts that agree on these settle the audit the same way
    and leave the same context. *)
Theorem audit_reads_default_pass_only
    (artifacts1 artifacts2 : Artifacts) (context : AuditContext) :
  traces artifacts1 !! Audit_DEFAULT_PASS ext
    = traces artifacts2 !! Audit_DEFAULT_PASS ext ->
  devtoolsLogs artifacts1 !! Audit_DEFAULT_PASS ext
    = devtoolsLogs artifacts2 !! Audit_DEFAULT_PASS ext ->
  scoreOptionsKey (TestedAsMobileDevice artifacts1)
    = scoreOptionsKey (TestedAsMobileDevice artifacts2) ->
  audit ext artifacts1 context = audit ext artifacts2 context.
Proof.
  intros Htrace Hlog Hkey. rewrite !audit_unfold.
  unfold requested, resolveOptions. rewrite Htrace, Hlog, Hkey. reflexivity.
Qed.

(** X4. Only the parameter set under the selected key counts: configuring
    another key (the desktop set on a run that is not classified [false],
    the mobile set on one that is) does not change how the audit settles,
    as long as the provider settles the same way. *)
Theorem audit_ignores_unselected_options
    (artifacts : Artifacts) (context : AuditContext)
    (key : string) (scoreOptions : ScoreOptions) :
  key <> scoreOptionsKey (TestedAsMobileDevice artifacts) ->
  snd (ComputedFmp_request ext (requested ext artifacts context)
         (set_options context (<[key := scoreOptions]> (options context))))
    = snd (ComputedFmp_request ext (requested ext artifacts context) context) ->
  snd (audit ext artifacts
         (set_options context (<[key := scoreOptions]> (options context))))
    = snd (audit ext artifacts context).
Proof.
  intros Hkey Hrequest. rewrite !audit_unfold.
  change (requested ext artifacts (set_options context _))
    with (requested ext artifacts context).
  destruct (ComputedFmp_request ext _ (set_options context _)) as [cache' settled'].
  destruct (ComputedFmp_request ext _ context) as [cache settled].
  simpl in Hrequest. subst settled'. simpl.
  unfold resolveOptions. rewrite lookup_insert_ne by exact Hkey. reflexivity.
Qed.

(** X5. On the built-in defaults no classification misses its parameter
    set: whenever the provider resolves, the audit is fulfilled, with the
    score of the timing under 800 and 1600 when the device was tested as
    not mobile ([false]) and under 2000 and 4000 in every other case. *)
Theorem audit_on_defaultOptions
    (artifacts : Artifacts) (context : AuditContext) (cache : ComputedCache)
    (metricResult : Metric) :
  options context = defaultOptions ->
  ComputedFmp_request ext (requested ext artifacts context) context
    = (cache, inr metricResult) ->
  exists product,
    audit ext artifacts context = (set_computedCache context cache, Fulfilled product)
    /\ numericValue product = timing metricResult
    /\ score product
       = if Js.strict_equals (TestedAsMobileDevice artifacts) (Js.Boolean false)
         then Audit_computeLogNormalScore ext (timing metricResult) 800 1600
         else Audit_computeLogNormalScore ext (timing metricResult) 2000 4000.
Proof.
  intros Hoptions Hrequest. rewrite audit_unfold, Hrequest, Hoptions.
  unfold resolveOptions, scoreOptionsKey.
  destruct (Js.strict_equals _ _); eexists; repeat split.
Qed.

(** X6. Audits that share a context share the timing. After a fulfilled
    run against a memoising provider, a run on artifacts with the same
    default-pass trace and log leaves the context as it is and reports the
    same numeric value, unit and display value; its score is that of the
    same timing under its own parameter set, and it rejects only when that
    set is missing. *)
Theorem audit_shares_timing
    (artifacts1 artifacts2 : Artifacts) (context context1 : AuditContext)
    (product1 : Product) :
  memoised ext ->
  traces artifacts1 !! Audit_DEFAULT_PASS ext
    = traces artifacts2 !! Audit_DEFAULT_PASS ext ->
  devtoolsLogs artifacts1 !! Audit_DEFAULT_PASS ext
    = devtoolsLogs artifacts2 !! Audit_DEFAULT_PASS ext ->
  audit ext artifacts1 context = (context1, Fulfilled product1) ->
  audit ext artifacts2 context1
  = (context1,
     match resolveOptions (TestedAsMobileDevice artifacts2) (options context) with
     | Some scoreOptions =>
         Fulfilled
           {| score := Audit_computeLogNormalScore ext (numericValue product1)
                         (scorePODR scoreOptions) (scoreMedian scoreOptions);
              numericValue := numericValue product1;
              numericUnit := numericUnit product1;
              displayValue := displayValue product1 |}
     | None => Rejected (TypeError "scorePODR")
     end).
Proof.
  intros Hmemo Htrace Hlog. rewrite audit_unfold.
  destruct (ComputedFmp_request ext _ context)
    as [cache [failure | metricResult]] eqn:Hrequest; [intros E; discriminate E |].
  destruct (resolveOptions (TestedAsMobileDevice artifacts1) _) as [scoreOptions1 |];
    [| intros E; discriminate E].
  intros E. injection E as <- <-.
  apply Hmemo in Hrequest. rewrite audit_unfold.
  replace (requested ext artifacts2 (set_computedCache context cache))
    with (requested ext artifacts1 context)
    by (unfold requested; rewrite Htrace, Hlog; reflexivity).
  rewrite Hrequest. simpl.
  destruct (resolveOptions (TestedAsMobileDevice artifacts2) _); reflexivity.
Qed.

End AuditFurtherProperties.

(** *** The further properties on the demo collaborators *)

Lemma audit_rejects_missing_scoreOptions_witness :
  let artifacts := Demo.artifacts (Some 2000) (Js.Boolean false) in
  let context := Demo.context Demo.mobile_only in
  let settled := inr {| timing := 2000 |} in
  ComputedFmp_request Demo.ext (requested Demo.ext artifacts context) context
    = (Some settled, settled)
  /\ resolveOptions (TestedAsMobileDevice artifacts) (options context) = None
  /\ audit Demo.ext artifacts context
     = (set_computedCache context (Some settled), Rejected (TypeError "scorePODR")).
Proof.
  intros artifacts context settled.
  assert (Hrequest :
    ComputedFmp_request Demo.ext (requested Demo.ext artifacts context) context
      = (Some settled, settled)) by reflexivity.
  assert (Hresolve :
    resolveOptions (TestedAsMobileDevice artifacts) (options context) = None)
    by reflexivity.
  split; [exact Hrequest |]. split; [exact Hresolve |].
  exact (audit_rejects_missing_scoreOptions Demo.ext artifacts context _ _
           Hrequest Hresolve).
Defined.

Lemma audit_rejection_reasons_witness :
  let artifacts := Demo.artifacts None (Js.Boolean true) in
  let context := Demo.context defaultOptions in
  let context' := set_computedCache context (Some (inl "NO_FMP")) in
  audit Demo.ext artifacts context = (context', Rejected (Upstream "NO_FMP"))
  /\ ((exists failure,
         Upstream "NO_FMP" = Upstream failure
         /\ ComputedFmp_request Demo.ext (requested Demo.ext artifacts context) context
            = (computedCache context', inl failure))
      \/ (Upstream "NO_FMP" = TypeError "scorePODR"
          /\ (exists metricResult,
                ComputedFmp_request Demo.ext
                  (requested Demo.ext artifacts context) context
                  = (computedCache context', inr metricResult))
          /\ resolveOptions (TestedAsMobileDevice artifacts) (options context)
             = None)).
Proof.
  intros artifacts context context'.
  assert (Hrun :
    audit Demo.ext artifacts context = (context', Rejected (Upstream "NO_FMP")))
    by reflexivity.
  split; [exact Hrun |].
  exact (audit_rejection_reasons Demo.ext artifacts context context' _ Hrun).
Defined.

Lemma audit_reads_default_pass_only_witness :
  let artifacts1 := Demo.artifacts (Some 2000) (Js.Boolean true) in
  let artifacts2 := Demo.artifacts_two_passes (Some 2000) (Some 9000) Js.Undefined in
  let context := Demo.context defaultOptions in
  traces artifacts1 !! "defaultPass" = traces artifacts2 !! "defaultPass"
  /\ devtoolsLogs artifacts1 !! "defaultPass" = devtoolsLogs artifacts2 !! "defaultPass"
  /\ scoreOptionsKey (TestedAsMobileDevice artifacts1)
     = scoreOptionsKey (TestedAsMobileDevice artifacts2)
  /\ audit Demo.ext artifacts1 context = audit Demo.ext artifacts2 context.
Proof.
  intros artifacts1 artifacts2 context.
  assert (Htrace :
    traces artifacts1 !! "defaultPass" = traces artifacts2 !! "defaultPass")
    by reflexivity.
  assert (Hlog :
    devtoolsLogs artifacts1 !! "defaultPass" = devtoolsLogs artifacts2 !! "defaultPass")
    by reflexivity.
  assert (Hkey :
    scoreOptionsKey (TestedAsMobileDevice artifacts1)
      = scoreOptionsKey (TestedAsMobileDevice artifacts2)) by reflexivity.
  split; [exact Htrace |]. split; [exact Hlog |]. split; [exact Hkey |].
  exact (audit_reads_default_pass_only Demo.ext artifacts1 artifacts2 context
           Htrace Hlog Hkey).
Defined.

Lemma audit_ignores_unselected_options_witness :
  let artifacts := Demo.artifacts (Some 2000) (Js.Boolean true) in
  let context := Demo.context defaultOptions in
  let override := {| scorePODR := 1; scoreMedian := 2 |} in
  let context' := set_options context (<["desktop" := override]> (options context)) in
  "desktop" <> scoreOptionsKey (TestedAsMobileDevice artifacts)
  /\ snd (ComputedFmp_request Demo.ext (requested Demo.ext artifacts context) context')
     = snd (ComputedFmp_request Demo.ext (requested Demo.ext artifacts context) context)
  /\ snd (audit Demo.ext artifacts context') = snd (audit Demo.ext artifacts context).
Proof.
  intros artifacts context override context'.
  assert (Hkey : "desktop" <> scoreOptionsKey (TestedAsMobileDevice artifacts))
    by (simpl; discriminate).
  assert (Hrequest :
    snd (ComputedFmp_request Demo.ext (requested Demo.ext artifacts context) context')
      = snd (ComputedFmp_request Demo.ext
               (requested Demo.ext artifacts context) context)) by reflexivity.
  split; [exact Hkey |]. split; [exact Hrequest |].
  exact (audit_ignores_unselected_options Demo.ext artifacts context "desktop"
           override Hkey Hrequest).
Defined.

Lemma audit_on_defaultOptions_witness :
  let artifacts := Demo.artifacts (Some 1200) (Js.Boolean false) in
  let context := Demo.context defaultOptions in
  let metricResult := {| timing := 1200 |} in
  options context = defaultOptions
  /\ ComputedFmp_request Demo.ext (requested Demo.ext artifacts context) context
     = (Some (inr metricResult), inr metricResult)
  /\ exists product,
       audit Demo.ext artifacts context
         = (set_computedCache context (Some (inr metricResult)), Fulfilled product)
       /\ numericValue product = 1200
       /\ score product = Demo.score 1200 800 1600.
Proof.
  intros artifacts context metricResult.
  assert (Hoptions : options context = defaultOptions) by reflexivity.
  assert (Hrequest :
    ComputedFmp_request Demo.ext (requested Demo.ext artifacts context) context
      = (Some (inr metricResult), inr metricResult)) by reflexivity.
  split; [exact Hoptions |]. split; [exact Hrequest |].
  exact (audit_on_defaultOptions Demo.ext artifacts context _ _ Hoptions Hrequest).
Defined.

Lemma audit_shares_timing_witness :
  let artifacts1 := Demo.artifacts (Some 3000) (Js.Boolean true) in
  let artifacts2 :=
    Demo.artifacts_two_passes (Some 3000) (Some 9000) (Js.Boolean false) in
  let context := Demo.context defaultOptions in
  let context1 := set_computedCache context (Some (inr {| timing := 3000 |})) in
  let product score :=
    {| score := score; numericValue := 3000;
       numericUnit := "millisecond"; displayValue := "seconds" |} in
  memoised Demo.ext
  /\ traces artifacts1 !! "defaultPass" = traces artifacts2 !! "defaultPass"
  /\ devtoolsLogs artifacts1 !! "defaultPass" = devtoolsLogs artifacts2 !! "defaultPass"
  /\ audit Demo.ext artifacts1 context
     = (context1, Fulfilled (product (Demo.score 3000 2000 4000)))
  /\ audit Demo.ext artifacts2 context1
     = (context1, Fulfilled (product (Demo.score 3000 800 1600))).
Proof.
  intros artifacts1 artifacts2 context context1 product.
  assert (Htrace :
    traces artifacts1 !! "defaultPass" = traces artifacts2 !! "defaultPass")
    by reflexivity.
  assert (Hlog :
    devtoolsLogs artifacts1 !! "defaultPass" = devtoolsLogs artifacts2 !! "defaultPass")
    by reflexivity.
  assert (Hrun :
    audit Demo.ext artifacts1 context
      = (context1, Fulfilled (product (Demo.score 3000 2000 4000))))
    by reflexivity.
  split; [exact Demo_request_memoised |].
  split; [exact Htrace |]. split; [exact Hlog |]. split; [exact Hrun |].
  exact (audit_shares_timing Demo.ext artifacts1 artifacts2 context context1 _
           Demo_request_memoised Htrace Hlog Hrun).
Defined.
